(** * tap-file: the tap class and the file-ingestion pipeline

    Shallow embedding of [tap_file/tap.py] (class [TapFile]: the declarative
    option schema [config_jsonschema] and the method [discover_streams]),
    followed by a model of the ingestion pipeline the tap delegates to. *)

From Stdlib Require Import Ascii.
From stdpp Require Import base option list strings gmap.

Local Open Scope string_scope.

(** ** Python values held by the configuration

    The settings declared by the tap are strings ([th.StringType],
    [th.RegexType]) and booleans ([th.BooleanType]); an optional setting may
    also be [None] (JSON [null]). *)

Inductive pyval :=
| VStr (s : string)
| VBool (b : bool)
| VNone.

#[global] Instance pyval_eq_dec : EqDecision pyval.
Proof. solve_decision. Defined.

(** [str(v)], as used by an f-string replacement field. *)
Definition py_str (v : pyval) : string :=
  match v with
  | VStr s => s
  | VBool true => "True"
  | VBool false => "False"
  | VNone => "None"
  end.

(** [v == s] for a string literal [s]. *)
Definition py_eq_str (v : pyval) (s : string) : bool :=
  bool_decide (v = VStr s).

(** [v in {s1, ..., sn}] for a set display of string literals. *)
Definition py_in_strs (v : pyval) (lits : list string) : bool :=
  existsb (py_eq_str v) lits.

(** [bool(v)]: the truth value a condition such as [if name:] tests. *)
Definition py_truthy (v : pyval) : bool :=
  match v with
  | VStr EmptyString => false
  | VStr _ => true
  | VBool b => b
  | VNone => false
  end.

(** ** Exceptions *)

Inductive exn :=
| KeyError (key : string)
| NotImplementedError (msg : string)
| ValueError (msg : string)
| AttributeError (msg : string)
| ConfigValidationError.

Inductive exn_class :=
| KeyErrorCls | NotImplementedErrorCls | ValueErrorCls | AttributeErrorCls
| ConfigValidationErrorCls.

Definition class_of (e : exn) : exn_class :=
  match e with
  | KeyError _ => KeyErrorCls
  | NotImplementedError _ => NotImplementedErrorCls
  | ValueError _ => ValueErrorCls
  | AttributeError _ => AttributeErrorCls
  | ConfigValidationError => ConfigValidationErrorCls
  end.

Definition message_of (e : exn) : string :=
  match e with
  | KeyError k => k
  | NotImplementedError m | ValueError m | AttributeError m => m
  | ConfigValidationError => "Config validation failed"
  end.

(** ** A computation that may raise, with the calls it makes into
    [tap_file.streams] recorded

    [discover_streams] reaches the file system only through the stream
    classes it instantiates, so the list of instantiations is the trace of
    everything that can touch a file. *)

Inductive StreamClass := DelimitedStreamCls | JSONLStreamCls.

Record Instantiation := mkInstantiation {
  inst_class : StreamClass;
  inst_name : pyval
}.

Record Run (A : Type) := mkRun {
  calls : list Instantiation;
  outcome : exn + A
}.
Arguments mkRun {A} _ _.
Arguments calls {A} _.
Arguments outcome {A} _.

Definition returns {A} (x : A) : Run A := mkRun [] (inr x).
Definition raises {A} (e : exn) : Run A := mkRun [] (inl e).

Definition bind {A B} (m : Run A) (k : A → Run B) : Run B :=
  match outcome m with
  | inl e => mkRun (calls m) (inl e)
  | inr a => let r := k a in mkRun (calls m ++ calls r) (outcome r)
  end.

#[global] Instance Run_ret : MRet Run := @returns.
#[global] Instance Run_bind : MBind Run := λ A B k m, bind m k.

(** [d[key]] on a [dict]: [KeyError] when the key is absent. *)
Definition getitem (d : gmap string pyval) (key : string) : Run pyval :=
  match d !! key with
  | Some v => returns v
  | None => raises (KeyError key)
  end.

(** ** The declarative option schema ([th.PropertiesList] of [th.Property])

    A [Property] keeps the arguments of the [th.Property(...)] call:
    [required] is [False] and [default], [allowed_values] are [None] when
    the call does not pass them. *)

Inductive JSONTypeHelper := StringType | RegexType | BooleanType.

Record Property := mkProperty {
  prop_name : string;
  prop_wrapped : JSONTypeHelper;
  prop_required : bool;
  prop_default : option pyval;
  prop_allowed_values : option (list string);
  prop_description : string
}.

(** The one-character string holding the double-quote character (code 34),
    the default of [quote_character]. *)
Definition double_quote : string := String "034"%char EmptyString.

(** [os.getenv(name)] against the process environment: a string, or [None]
    (no default) when the variable is unset. *)
Definition getenv (environ : gmap string string) (name : string) : option pyval :=
  VStr <$> environ !! name.

Definition config_properties (environ : gmap string string) : list Property := [
  mkProperty "stream_name" StringType false (Some (VStr "file")) None
    "The name of the stream that is output by the tap.";
  mkProperty "protocol" StringType true None (Some ["file"; "s3"])
    "The protocol to use to retrieve data. One of `file` or `s3`.";
  mkProperty "filepath" StringType true None None
    ("The path to obtain files from. Example: `/foo/bar`. Or, for "
     +:+ "`protocol==s3`, use `s3-bucket-name` instead.");
  mkProperty "file_regex" RegexType false None None
    "A regex pattern to only include certain files. Example: `.*\.csv`.";
  mkProperty "file_type" RegexType false (Some (VStr "delimited")) None
    ("Can be any of `delimited`, `jsonl`, or `avro`. Indicates the type of "
     +:+ "file to sync, where `delimited` is for CSV/TSV files and similar. "
     +:+ "Note that *all* files will be read as that type, regardless of file "
     +:+ "extension. To only read from files with a matching file extension, "
     +:+ "appropriately configure `file_regex`.");
  mkProperty "compression" StringType false (Some (VStr "detect"))
    (Some ["none"; "zip"; "bz2"; "gzip"; "lzma"; "xz"; "detect"])
    ("The encoding to use to decompress data. One of `zip`, `bz2`, `gzip`, "
     +:+ "`lzma`, `xz`, `none`, or `detect`. If set to `none` or any encoding, "
     +:+ "that setting will be applied to *all* files, regardless of file "
     +:+ "extension. If set to `detect`, encodings will be applied based on "
     +:+ "file extension.");
  mkProperty "delimiter" StringType false (Some (VStr "detect")) None
    ("The character used to separate records in a delimited file. Can be "
     +:+ "any character or the special value `detect`. If a character is "
     +:+ "provided, all delimited files will use that value. `detect` will use "
     +:+ "`,` for `.csv` files, `\t` for `.tsv` files, and fail if other file "
     +:+ "types are present.");
  mkProperty "quote_character" StringType false (Some (VStr double_quote)) None
    ("The character used to indicate when a record in a CSV contains a "
     +:+ "delimiter character.");
  mkProperty "jsonl_sampling_strategy" StringType false (Some (VStr "first"))
    (Some ["first"; "all"])
    ("The strategy determining how to read the keys in a JSONL file. Must "
     +:+ "be one of `first` or `all`. Currently, only `first` is supported, "
     +:+ "which will assume that the first record in a file is representative "
     +:+ "of all keys.");
  mkProperty "jsonl_type_coercion_strategy" StringType false (Some (VStr "any"))
    (Some ["any"; "string"; "blob"])
    ("The strategy determining how to construct the schema for JSONL files "
     +:+ "when the types represented are ambiguous. Must be one of `any`, "
     +:+ "`string`, or `blob`. `any` will provide a generic schema for all "
     +:+ "keys, allowing them to be any valid JSON type. `string` will require "
     +:+ "all keys to be strings and will convert other values accordingly. "
     +:+ "`blob` will deliver each JSONL row as a JSON object with no internal "
     +:+ "schema. Currently, only `any` and `string` are supported.");
  mkProperty "s3_anonymous_connection" BooleanType false (Some (VBool false)) None
    ("Whether to use an anonymous S3 connection, without any credentials. "
     +:+ "Ignored if `protocol!=s3`.");
  mkProperty "AWS_ACCESS_KEY_ID" StringType false
    (getenv environ "AWS_ACCESS_KEY_ID") None
    ("The access key to use when authenticating to S3. Ignored if "
     +:+ "`protocol!=s3` or `s3_anonymous_connection=True`. Defaults to the "
     +:+ "value of the environment variable of the same name.");
  mkProperty "AWS_SECRET_ACCESS_KEY" StringType false
    (getenv environ "AWS_SECRET_ACCESS_KEY") None
    ("The access key secret to use when authenticating to S3. Ignored if "
     +:+ "`protocol!=s3` or `s3_anonymous_connection=True`. Defaults to the "
     +:+ "value of the environment variable of the same name.");
  mkProperty "caching_strategy" StringType false (Some (VStr "once"))
    (Some ["none"; "once"; "persistent"])
    ("*DEVELOPERS ONLY* The caching method to use when `protocol!=file`. "
     +:+ "One of `none`, `once`, or `persistent`. `none` does not use caching "
     +:+ "at all. `once` (the default) will cache all files for the duration of "
     +:+ "the tap's invocation, then discard them upon completion. `peristent` "
     +:+ "will allow caches to persist between invocations of the tap, storing "
     +:+ "them in your OS's temp directory. It is recommended that you do not "
     +:+ "modify this setting.")
].

(** *** [PropertiesList.to_dict()]: the JSON Schema of the configuration

    The schema object lists the sub-schema of every property and the names
    of the required ones. A property that is not required also admits
    [null]; [default] and [enum] are present when the property gives a
    default or allowed values. *)

Record PropertySchema := mkPropertySchema {
  ps_type : JSONTypeHelper;
  ps_nullable : bool;
  ps_default : option pyval;
  ps_enum : option (list string);
  ps_description : string
}.

Record ObjectSchema := mkObjectSchema {
  properties : list (string * PropertySchema);
  required : list string
}.

Definition property_to_dict (p : Property) : string * PropertySchema :=
  (prop_name p,
   mkPropertySchema (prop_wrapped p) (negb (prop_required p))
     (prop_default p) (prop_allowed_values p) (prop_description p)).

Definition to_dict (ps : list Property) : ObjectSchema :=
  mkObjectSchema
    (property_to_dict <$> ps)
    (prop_name <$> filter (λ p, prop_required p = true) ps).

Definition config_jsonschema (environ : gmap string string) : ObjectSchema :=
  to_dict (config_properties environ).

(** The sub-schema of a property, by name (first declaration wins). *)
Fixpoint assoc {A} (k : string) (l : list (string * A)) : option A :=
  match l with
  | [] => None
  | (k', a) :: l' => if decide (k = k') then Some a else assoc k l'
  end.

Definition schema_default (sch : ObjectSchema) (k : string) : option pyval :=
  assoc k (properties sch) ≫= ps_default.

Definition schema_enum (sch : ObjectSchema) (k : string) : option (list string) :=
  assoc k (properties sch) ≫= ps_enum.

(** *** How the SDK's plugin base class treats the configuration

    [Tap.__init__] belongs to the SDK, not to this repository. What the tap
    relies on (the test suite builds the tap from a configuration that gives
    [protocol] and [filepath] alone, and [discover_streams] then reads
    [stream_name] and [file_type]) is that the declared defaults are filled
    in for absent keys and that the result is validated against the schema:
    [required], [type] and [enum]. Whether the [regex] format annotation of
    [th.RegexType] is asserted depends on the validator's format checker,
    which is a parameter here. *)

Definition schema_defaults (sch : ObjectSchema) : gmap string pyval :=
  list_to_map (omap (λ kp, pair kp.1 <$> ps_default kp.2) (properties sch)).

Definition apply_defaults (sch : ObjectSchema) (cfg : gmap string pyval)
  : gmap string pyval :=
  cfg ∪ schema_defaults sch.

Definition type_accepts (regex_ok : string → bool)
    (t : JSONTypeHelper) (nullable : bool) (v : pyval) : bool :=
  match v, t with
  | VStr _, StringType => true
  | VStr s, RegexType => regex_ok s
  | VBool _, BooleanType => true
  | VNone, _ => nullable
  | _, _ => false
  end.

Definition enum_accepts (enum : option (list string)) (v : pyval) : bool :=
  match enum with
  | None => true
  | Some allowed => py_in_strs v allowed
  end.

Definition property_accepts (regex_ok : string → bool)
    (ps : PropertySchema) (v : pyval) : bool :=
  type_accepts regex_ok (ps_type ps) (ps_nullable ps) v
  && enum_accepts (ps_enum ps) v.

Definition validate (regex_ok : string → bool)
    (sch : ObjectSchema) (cfg : gmap string pyval) : bool :=
  forallb (λ k, bool_decide (is_Some (cfg !! k))) (required sch)
  && forallb (λ kp, match cfg !! kp.1 with
                    | Some v => property_accepts regex_ok kp.2 v
                    | None => true
                    end) (properties sch).

(** ** The tap *)

Record TapFile := mkTapFile {
  config : gmap string pyval
}.

(** The configuration part of building the tap, done by the SDK's plugin
    base class: defaults, then validation. *)
Definition PluginBase_init (regex_ok : string → bool)
    (environ : gmap string string) (user_config : gmap string pyval)
  : exn + TapFile :=
  let cfg := apply_defaults (config_jsonschema environ) user_config in
  if validate regex_ok (config_jsonschema environ) cfg
  then inr (mkTapFile cfg)
  else inl ConfigValidationError.

(** The stream classes of [tap_file.streams], which [tap.py] imports: the
    type of stream objects, the object each of the two constructors
    [discover_streams] calls (with the tap and the keyword argument
    [name]) builds from a usable name, and the [name] attribute of a
    stream object. *)

Class Streams := {
  FileStream : Type;
  DelimitedStream : TapFile → pyval → FileStream;
  JSONLStream : TapFile → pyval → FileStream;
  stream_name : FileStream → pyval
}.

Definition class_name (cls : StreamClass) : string :=
  match cls with
  | DelimitedStreamCls => "DelimitedStream"
  | JSONLStreamCls => "JSONLStream"
  end.

(** What reading [self.name] raises on a stream object that was given no
    usable name. *)
Definition missing_name_error (cls : StreamClass) : exn :=
  AttributeError ("'" +:+ class_name cls +:+ "' object has no attribute 'name'").

(** A constructor call, recorded. The stream classes inherit the SDK's
    [Stream.__init__], which keeps the argument only when it is truthy
    ([if name: self.name = name]) and then reads [self.name]: with [None]
    or the empty string for [name] the attribute was never set and the
    call raises; otherwise it returns the object. *)
Definition instantiate `{Streams} (cls : StreamClass)
    (ctor : TapFile → pyval → FileStream) (tap : TapFile) (name : pyval)
  : Run FileStream :=
  mkRun [mkInstantiation cls name]
    (if py_truthy name then inr (ctor tap name)
     else inl (missing_name_error cls)).

Definition discover_streams `{Streams} (self : TapFile) : Run (list FileStream) :=
  name ← getitem (config self) "stream_name";
  file_type ← getitem (config self) "file_type";
  if py_eq_str file_type "delimited" then
    s ← instantiate DelimitedStreamCls DelimitedStream self name;
    mret [s]
  else if py_eq_str file_type "jsonl" then
    s ← instantiate JSONLStreamCls JSONLStream self name;
    mret [s]
  else if py_eq_str file_type "avro" then
    raises (NotImplementedError "avro has not yet been implemented.")
  else if py_in_strs file_type ["csv"; "tsv"] then
    raises (ValueError (py_str file_type
              +:+ " is not a valid 'file_type'. Did you mean 'delimited'?"))
  else
    raises (ValueError (py_str file_type +:+ " is not a valid 'file_type'.")).

(** [TapFile(config=..., setup_mapper=...)]: the SDK's [Tap.__init__]
    handles the configuration and then, unless [setup_mapper] is [False]
    (it is [True] by default, as in the test suite), sets up the stream
    mapper from the catalog, which runs [discover_streams]; an exception
    raised there leaves no tap. *)
Definition TapFile_init `{Streams} (regex_ok : string → bool)
    (environ : gmap string string) (setup_mapper : bool)
    (user_config : gmap string pyval) : exn + TapFile :=
  match PluginBase_init regex_ok environ user_config with
  | inl e => inl e
  | inr tap =>
      if setup_mapper then
        match outcome (discover_streams tap) with
        | inl e => inl e
        | inr _ => inr tap
        end
      else inr tap
  end.

(** Stream objects as plain records of what the constructor was given: the
    instance used to run [discover_streams] on concrete configurations. *)
Record StreamObject := mkStreamObject {
  so_class : StreamClass;
  so_tap : TapFile;
  so_name : pyval
}.

Definition record_streams : Streams := {|
  FileStream := StreamObject;
  DelimitedStream := mkStreamObject DelimitedStreamCls;
  JSONLStream := mkStreamObject JSONLStreamCls;
  stream_name := so_name
|}.

(** [SAMPLE_CONFIG] of [tests/test_core.py]: the configuration the test
    suite builds the tap from. *)
Definition SAMPLE_CONFIG : gmap string pyval :=
  {[ "protocol" := VStr "s3"; "filepath" := VStr "tap-file-taptesting" ]}.

(** The tap built from [SAMPLE_CONFIG] with one more setting, in an empty
    process environment. *)
Definition sample_tap (key : string) (value : pyval) : TapFile :=
  mkTapFile (apply_defaults (config_jsonschema ∅) (<[key := value]> SAMPLE_CONFIG)).

(** * The file-ingestion pipeline

    [tap.py] delegates everything past stream discovery to
    [tap_file.streams], which is not part of the embedded sources. The
    definitions of this module follow the written specification of that
    pipeline, component by component. *)

Module Ingest.

(** Modelled from the spec: the error taxonomy of the pipeline (the modules
    raising them are missing). [NotImplemented], the signal of the
    [NotImplementedError] class, and [InvalidOption] are the configuration
    errors. *)
Inductive Failure :=
| NotImplemented
| InvalidOption
| NotFoundError
| AccessError
| TransientError
| DecompressionError
| AmbiguousArchiveError
| RowShapeError (file : string) (line : nat)
| MalformedRecordError (file : string) (line : nat)
| UnsupportedDelimiterError.

Definition is_configuration_error (f : Failure) : bool :=
  match f with
  | NotImplemented | InvalidOption => true
  | _ => false
  end.

Definition result (A : Type) : Type := Failure + A.

#[global] Instance result_ret : MRet result := λ A x, inr x.
#[global] Instance result_bind : MBind result := λ A B k m,
  match m with
  | inl f => inl f
  | inr a => k a
  end.

(** ** File names *)

(** Modelled from the spec: the filename extension that detection inspects
    (the detecting code is missing): the part of the name from its last dot
    on, empty when the name has no dot. *)
Fixpoint extension (filename : string) : string :=
  match filename with
  | EmptyString => EmptyString
  | String c rest =>
      match extension rest with
      | EmptyString => if Ascii.eqb c "." then filename else EmptyString
      | ext => ext
      end
  end.

(** [filename] ends in [suffix]. *)
Definition ends_in (filename suffix : string) : Prop :=
  ∃ stem, filename = stem +:+ suffix.

(** ** CompressionResolver *)

Inductive StreamCodec := Bz2 | Gzip | Lzma | Xz.

Inductive Codec :=
| Zip
| Stream (c : StreamCodec).

#[global] Instance StreamCodec_eq_dec : EqDecision StreamCodec.
Proof. solve_decision. Defined.
#[global] Instance Codec_eq_dec : EqDecision Codec.
Proof. solve_decision. Defined.

(** Modelled from the spec: the extension to codec table of [detect]
    (the compression resolver is missing). *)
Definition extension_codecs : list (string * Codec) := [
  (".gz", Stream Gzip);
  (".zip", Zip);
  (".bz2", Stream Bz2);
  (".xz", Stream Xz);
  (".lzma", Stream Lzma)
].

(** Modelled from the spec: codec detection, missing from the sources;
    [None] is pass-through, the file being treated as already decoded. *)
Definition detect_codec (filename : string) : option Codec :=
  assoc (extension filename) extension_codecs.

(** Modelled from the spec: the configured compression strategy, [none],
    a named codec or [detect] (the resolver reading it is missing). The
    names are the allowed values of the [compression] setting. *)
Inductive CompressionStrategy :=
| NoCompression
| Named (c : Codec)
| Detect.

Definition compression_names : list (string * CompressionStrategy) := [
  ("none", NoCompression);
  ("zip", Named Zip);
  ("bz2", Named (Stream Bz2));
  ("gzip", Named (Stream Gzip));
  ("lzma", Named (Stream Lzma));
  ("xz", Named (Stream Xz));
  ("detect", Detect)
].

(** Modelled from the spec: what a raw byte stream holds, as far as the
    resolver (missing) can tell: bytes in no container, the output of a
    single-stream codec, or a zip archive with its named members. *)
#[warnings="-register-all"]
Inductive Payload :=
| Plain (content : string)
| Packed (c : StreamCodec) (inner : Payload)
| ZipArchive (members : list (string * Payload)).

(** A decoded stream, with the file name that decides its format. *)
Record Decoded := mkDecoded {
  decoded_name : string;
  decoded_stream : Payload
}.

(** Modelled from the spec: the codec a strategy selects for a file name
    (the resolver is missing): none under [none], the named codec whatever
    the extension, the detected one under [detect]. *)
Definition choose_codec (strategy : CompressionStrategy) (filename : string)
  : option Codec :=
  match strategy with
  | NoCompression => None
  | Named c => Some c
  | Detect => detect_codec filename
  end.

Section Resolver.
(** The specification says nothing of an archive without members; its
    outcome stays a parameter. *)
Variable empty_archive : result Decoded.

(** Modelled from the spec: applying a codec choice to a raw stream (the
    decoding code is missing). No codec passes the stream through; a
    single-stream codec fails with [DecompressionError] on bytes that are
    not in that codec; a zip archive with one member defers to that
    member's name, and one with several members is ambiguous. *)
Fixpoint decode_with (choice : option Codec) (filename : string)
    (raw : Payload) {struct raw} : result Decoded :=
  match choice with
  | None => inr (mkDecoded filename raw)
  | Some (Stream c) =>
      match raw with
      | Packed c' inner =>
          if decide (c = c') then inr (mkDecoded filename inner)
          else inl DecompressionError
      | _ => inl DecompressionError
      end
  | Some Zip =>
      match raw with
      | ZipArchive [] => empty_archive
      | ZipArchive [(inner_name, inner)] =>
          decode_with (detect_codec inner_name) inner_name inner
      | ZipArchive (_ :: _ :: _) => inl AmbiguousArchiveError
      | _ => inl DecompressionError
      end
  end.

(** Modelled from the spec: [resolve(filename, configured_strategy,
    raw_stream)], the contract of the missing resolver. *)
Definition resolve (strategy : CompressionStrategy) (filename : string)
    (raw : Payload) : result Decoded :=
  decode_with (choose_codec strategy filename) filename raw.
End Resolver.


(** ** FormatStrategy: delimited text *)

Definition tab : string := String "009"%char EmptyString.

(** Modelled from the spec: the extension to delimiter table of [detect]
    (the delimited reader is missing). *)
Definition extension_delimiters : list (string * string) := [
  (".csv", ",");
  (".tsv", tab)
].

(** Modelled from the spec: delimiter resolution of the missing delimited
    reader. A configured character is used as it is; [detect] looks the
    extension up and fails with [UnsupportedDelimiterError] when the table
    has no entry for it. *)
Definition resolve_delimiter (configured filename : string) : result string :=
  if decide (configured = "detect") then
    match assoc (extension filename) extension_delimiters with
    | Some d => inr d
    | None => inl UnsupportedDelimiterError
    end
  else inr configured.

(** ** FormatStrategy: JSON lines *)

Inductive SamplingStrategy := First | All.
Inductive CoercionStrategy := AnyType | AsString | Blob.

Definition sampling_names : list (string * SamplingStrategy) :=
  [("first", First); ("all", All)].

Definition coercion_names : list (string * CoercionStrategy) :=
  [("any", AnyType); ("string", AsString); ("blob", Blob)].

(** Modelled from the spec: the check of the missing JSON-lines reader on
    its two strategies. [all] and [blob] are declared but not supported and
    are refused; the supported pairs go through. *)
Definition check_jsonl_strategies (sampling : SamplingStrategy)
    (coercion : CoercionStrategy) : result unit :=
  match sampling, coercion with
  | All, _ => inl NotImplemented
  | _, Blob => inl NotImplemented
  | First, (AnyType | AsString) => inr ()
  end.

(** ** The format strategies *)

Inductive FormatStrategy :=
| DelimitedText (delimiter quote_character : string)
| JSONLines (sampling : SamplingStrategy) (coercion : CoercionStrategy).

(** The settings the pipeline reads, once validated: the settings with
    allowed values are one of their declared alternatives; [file_type] and
    [delimiter], which the schema leaves open, stay strings. *)
Record Options := mkOptions {
  filepath : string;
  file_regex : option string;
  file_type : string;
  compression : CompressionStrategy;
  delimiter : string;
  quote_character : string;
  jsonl_sampling_strategy : SamplingStrategy;
  jsonl_type_coercion_strategy : CoercionStrategy
}.

Definition config_string (cfg : gmap string pyval) (key : string)
  : option string :=
  match cfg !! key with
  | Some (VStr s) => Some s
  | _ => None
  end.

(** Reading the settings off the tap's configuration. *)
Definition options_of_config (cfg : gmap string pyval) : option Options :=
  fp ← config_string cfg "filepath";
  ft ← config_string cfg "file_type";
  comp ← config_string cfg "compression" ≫= λ s, assoc s compression_names;
  delim ← config_string cfg "delimiter";
  quote ← config_string cfg "quote_character";
  sampling ← config_string cfg "jsonl_sampling_strategy"
               ≫= λ s, assoc s sampling_names;
  coercion ← config_string cfg "jsonl_type_coercion_strategy"
               ≫= λ s, assoc s coercion_names;
  Some (mkOptions fp (config_string cfg "file_regex") ft comp delim quote
          sampling coercion).

(** Modelled from the spec: choosing the format strategy from the settings
    (the stream classes doing so are missing). Unsupported selections are
    refused here, before any file is listed or opened. *)
Definition select_format (o : Options) : result FormatStrategy :=
  if decide (file_type o = "delimited") then
    inr (DelimitedText (delimiter o) (quote_character o))
  else if decide (file_type o = "jsonl") then
    _ ← check_jsonl_strategies (jsonl_sampling_strategy o)
          (jsonl_type_coercion_strategy o);
    mret (JSONLines (jsonl_sampling_strategy o) (jsonl_type_coercion_strategy o))
  else if decide (file_type o = "avro") then inl NotImplemented
  else inl InvalidOption.

(** ** StorageSource *)

(** Modelled from the spec: a file entry and a storage source (the storage
    layer is missing): the entries enumeration finds, and [open], which may
    fail with [NotFoundError], [AccessError] or [TransientError]. *)
Record FileEntry := mkFileEntry {
  entry_path : string;
  entry_size : N;
  entry_mtime : Z
}.

Record StorageSource := mkStorageSource {
  entries : list FileEntry;
  open_entry : FileEntry → result Payload
}.

(** What the specification leaves to the format readers and to the regular
    expression engine: the types of schema descriptors and records, the
    matcher, schema inference from one decoded file and the parsing of one
    decoded file into the records read before the first failure, if any. *)
Class Readers := {
  SchemaDescriptor : Type;
  DataRecord : Type;
  regex_match : string → string → bool;
  empty_archive : result Decoded;
  infer_delimited : string → string → Decoded → result SchemaDescriptor;
  parse_delimited :
    string → string → SchemaDescriptor → Decoded → list DataRecord * option Failure;
  infer_jsonl : CoercionStrategy → Decoded → result SchemaDescriptor;
  parse_jsonl :
    CoercionStrategy → SchemaDescriptor → Decoded → list DataRecord * option Failure
}.

(** Modelled from the spec: [list(prefix, regex)] of the missing storage
    layer, the entries under the path prefix whose path matches the regex,
    in enumeration order; no regex configured matches every entry. *)
Definition list_matching `{Readers} (src : StorageSource) (path_prefix : string)
    (regex : option string) : list FileEntry :=
  filter (λ e, String.prefix path_prefix (entry_path e) = true
               ∧ from_option (λ r, regex_match r (entry_path e)) true regex = true)
         (entries src).

(** ** SchemaInferencer and the per-format readers *)

(** Modelled from the spec: the inference step of a format strategy on one
    decoded file (the stream classes are missing). *)
Definition infer_schema `{Readers} (fmt : FormatStrategy) (d : Decoded)
  : result SchemaDescriptor :=
  match fmt with
  | DelimitedText configured quote =>
      delim ← resolve_delimiter configured (decoded_name d);
      infer_delimited delim quote d
  | JSONLines sampling coercion =>
      _ ← check_jsonl_strategies sampling coercion;
      infer_jsonl coercion d
  end.

(** Modelled from the spec: the parsing step of a format strategy on one
    decoded file (the stream classes are missing). *)
Definition parse `{Readers} (fmt : FormatStrategy) (schema : SchemaDescriptor)
    (d : Decoded) : list DataRecord * option Failure :=
  match fmt with
  | DelimitedText configured quote =>
      match resolve_delimiter configured (decoded_name d) with
      | inr delim => parse_delimited delim quote schema d
      | inl f => ([], Some f)
      end
  | JSONLines sampling coercion =>
      match check_jsonl_strategies sampling coercion with
      | inr _ => parse_jsonl coercion schema d
      | inl f => ([], Some f)
      end
  end.

(** ** StreamPipeline *)

Record StreamPipeline := mkStreamPipeline {
  source : StorageSource;
  path_prefix : string;
  path_regex : option string;
  strategy : CompressionStrategy;
  format : FormatStrategy
}.

(** Modelled from the spec: binding the components from the settings (the
    orchestrating code is missing); configuration errors arise here. *)
Definition bind_pipeline (o : Options) (src : StorageSource)
  : result StreamPipeline :=
  fmt ← select_format o;
  mret (mkStreamPipeline src (filepath o) (file_regex o) (compression o) fmt).

Inductive Final :=
| Done
| Failed (reason : Failure).

(** What one invocation yields: the schema announced (if one was inferred),
    the records in emission order, the paths of the entries opened and the
    terminal state. *)
Record Emission `{Readers} := mkEmission {
  schema : option SchemaDescriptor;
  records : list DataRecord;
  touched : list string;
  final : Final
}.
Arguments mkEmission {_} _ _ _ _.
Arguments schema {_} _.
Arguments records {_} _.
Arguments touched {_} _.
Arguments final {_} _.

(** Modelled from the spec: the per-file loop of the missing orchestrator,
    Opening, Decompressing, Inferring the schema (first file only), Parsing
    and Emitting, entry after entry; a failure aborts the remaining list. *)
Fixpoint run_entries `{Readers} (p : StreamPipeline)
    (known : option SchemaDescriptor) (es : list FileEntry) : Emission :=
  match es with
  | [] => mkEmission known [] [] Done
  | e :: rest =>
      let here := [entry_path e] in
      match open_entry (source p) e
            ≫= resolve empty_archive (strategy p) (entry_path e) with
      | inl f => mkEmission known [] here (Failed f)
      | inr d =>
          match from_option inr (infer_schema (format p) d) known with
          | inl f => mkEmission known [] here (Failed f)
          | inr s =>
              match parse (format p) s d with
              | (rows, Some f) => mkEmission (Some s) rows here (Failed f)
              | (rows, None) =>
                  let later := run_entries p (Some s) rest in
                  mkEmission (schema later) (rows ++ records later)
                    (here ++ touched later) (final later)
              end
          end
      end
  end.

(** Modelled from the spec: one invocation of a bound pipeline, Idle, then
    Listing, then the per-file loop. *)
Definition run `{Readers} (p : StreamPipeline) : Emission :=
  run_entries p None (list_matching (source p) (path_prefix p) (path_regex p)).

(** Modelled from the spec: the pipeline from the settings; a configuration
    error fails the invocation before any entry is listed or opened. *)
Definition ingest `{Readers} (o : Options) (src : StorageSource) : Emission :=
  match bind_pipeline o src with
  | inl f => mkEmission None [] [] (Failed f)
  | inr p => run p
  end.

(** Readers that keep the content of a plain decoded stream as one record
    and remember the delimiter they were asked for; patterns match by
    equality. They make the pipeline run on concrete stores. *)
Definition sample_readers : Readers := {|
  SchemaDescriptor := list string;
  DataRecord := string * string;
  regex_match := String.eqb;
  empty_archive := inl DecompressionError;
  infer_delimited := λ delim quote d, inr [delim];
  parse_delimited := λ delim quote sch d,
    match decoded_stream d with
    | Plain content => ([(delim, content)], None)
    | _ => ([], Some (RowShapeError (decoded_name d) 1))
    end;
  infer_jsonl := λ coercion d, inr [];
  parse_jsonl := λ coercion sch d,
    match decoded_stream d with
    | Plain content => ([(EmptyString, content)], None)
    | _ => ([], Some (MalformedRecordError (decoded_name d) 1))
    end
|}.

Definition sample_source : StorageSource := {|
  entries := [mkFileEntry "data/a.csv" 16 0; mkFileEntry "data/b.zip" 64 0];
  open_entry := λ e,
    if decide (entry_path e = "data/a.csv") then inr (Plain "id,name")
    else if decide (entry_path e = "data/b.zip") then
      inr (ZipArchive [("b.tsv", Plain ("id" +:+ tab +:+ "name"))])
    else inl NotFoundError
|}.

End Ingest.

(** * Properties of [tap.py] *)

Section DiscoverStreams.
Context `{Streams}.

(** With both settings present, [discover_streams] is its chain of
    comparisons on [file_type]. *)
Lemma discover_streams_dispatch (self : TapFile) (name file_type : pyval) :
  config self !! "stream_name" = Some name →
  config self !! "file_type" = Some file_type →
  discover_streams self =
    if py_eq_str file_type "delimited" then
      mkRun [mkInstantiation DelimitedStreamCls name]
            (if py_truthy name then inr [DelimitedStream self name]
             else inl (missing_name_error DelimitedStreamCls))
    else if py_eq_str file_type "jsonl" then
      mkRun [mkInstantiation JSONLStreamCls name]
            (if py_truthy name then inr [JSONLStream self name]
             else inl (missing_name_error JSONLStreamCls))
    else if py_eq_str file_type "avro" then
      raises (NotImplementedError "avro has not yet been implemented.")
    else if py_in_strs file_type ["csv"; "tsv"] then
      raises (ValueError (py_str file_type
                +:+ " is not a valid 'file_type'. Did you mean 'delimited'?"))
    else
      raises (ValueError (py_str file_type +:+ " is not a valid 'file_type'.")).
Proof.
  intros Hname Htype. unfold discover_streams, getitem.
  rewrite Hname, Htype. unfold mbind, Run_bind, bind, instantiate; simpl.
  destruct (py_eq_str file_type "delimited");
    [by destruct (py_truthy name)|].
  destruct (py_eq_str file_type "jsonl");
    [by destruct (py_truthy name)|].
  repeat case_match; reflexivity.
Qed.
End DiscoverStreams.

Section Sdk.
Lemma schema_defaults_names (l : list (string * PropertySchema)) (k : string) :
  k ∉ l.*1 →
  (list_to_map (omap (λ kp, pair kp.1 <$> ps_default kp.2) l)
     : gmap string pyval) !! k = None.
Proof.
  intros Hk. apply not_elem_of_list_to_map_1. intros Hin. apply Hk.
  apply list_elem_of_fmap in Hin as [[k' d] [-> Hin]].
  apply list_elem_of_omap in Hin as [[k'' ps] [Hin Heq]].
  simpl in Heq. destruct (ps_default ps); simplify_eq/=.
  apply list_elem_of_fmap. by exists (k', ps).
Qed.

(** With property names declared once, the defaults the SDK fills in are
    the [default] entries of the schema. *)
Lemma schema_defaults_lookup (sch : ObjectSchema) (k : string) :
  NoDup (properties sch).*1 →
  schema_defaults sch !! k = schema_default sch k.
Proof.
  unfold schema_defaults, schema_default. destruct sch as [props req]; simpl.
  induction props as [|[k' ps] props IH]; intros Hnd; simpl.
  - apply lookup_empty.
  - apply NoDup_cons in Hnd as [Hk' Hnd].
    destruct (decide (k = k')) as [->|Hne].
    + destruct (ps_default ps) as [d|] eqn:Hd; simpl.
      * rewrite Hd. apply lookup_insert_eq.
      * rewrite Hd. by apply schema_defaults_names.
    + destruct (ps_default ps) as [d|]; simpl.
      * rewrite lookup_insert_ne by done. by apply IH.
      * by apply IH.
Qed.

Lemma config_property_names_NoDup (environ : gmap string string) :
  NoDup (properties (config_jsonschema environ)).*1.
Proof. apply (bool_decide_unpack _). vm_compute. reflexivity. Qed.

Lemma apply_defaults_present sch (cfg : gmap string pyval) k v :
  cfg !! k = Some v → apply_defaults sch cfg !! k = Some v.
Proof. intros Hk. unfold apply_defaults. by apply lookup_union_Some_l. Qed.

Lemma apply_defaults_absent sch (cfg : gmap string pyval) k :
  cfg !! k = None →
  apply_defaults sch cfg !! k = schema_defaults sch !! k.
Proof. intros Hk. unfold apply_defaults. by apply lookup_union_r. Qed.
End Sdk.

Section SdkInit.
(** [file_type] carries no [enum]: any value of its declared type keeps
    a valid configuration valid. *)
Lemma validate_file_type_open (regex_ok : string → bool)
    (environ : gmap string string) (cfg : gmap string pyval) (v : pyval) :
  type_accepts regex_ok RegexType true v = true →
  validate regex_ok (config_jsonschema environ) cfg = true →
  validate regex_ok (config_jsonschema environ) (<["file_type" := v]> cfg)
    = true.
Proof.
  intros Hft. unfold validate.
  rewrite !andb_true_iff, !forallb_forall.
  intros [Hreq Hprops]. split.
  - intros k Hk. specialize (Hreq k Hk).
    apply bool_decide_eq_true in Hreq. apply bool_decide_eq_true.
    rewrite lookup_insert. case_decide; eauto.
  - intros [k ps] Hin. specialize (Hprops _ Hin). simpl in *.
    rewrite lookup_insert. case_decide as Hk; [|done]. subst k.
    assert (ps_type ps = RegexType ∧ ps_nullable ps = true
            ∧ ps_enum ps = None) as (Ht & Hn & He).
    { clear -Hin. unfold property_to_dict in Hin; simpl in Hin.
      repeat (destruct Hin as [Hin|Hin]; [by simplify_eq/= |]). done. }
    unfold property_accepts, enum_accepts.
    rewrite Ht, Hn, He, Hft. reflexivity.
Qed.
End SdkInit.

Section SdkInitFacts.
Context `{Streams} (regex_ok : string → bool) (environ : gmap string string).

Lemma PluginBase_init_config (user : gmap string pyval) (tap : TapFile) :
  PluginBase_init regex_ok environ user = inr tap →
  config tap = apply_defaults (config_jsonschema environ) user.
Proof.
  unfold PluginBase_init. case_match; [|done]. by intros [= <-].
Qed.

(** A tap that was built went through the configuration part. *)
Lemma TapFile_init_base (setup_mapper : bool) (user : gmap string pyval)
    (tap : TapFile) :
  TapFile_init regex_ok environ setup_mapper user = inr tap →
  PluginBase_init regex_ok environ user = inr tap.
Proof.
  unfold TapFile_init.
  destruct (PluginBase_init regex_ok environ user) as [e|tap']; [done|].
  destruct setup_mapper; [|done].
  destruct (outcome (discover_streams tap')); [done|]. by intros [= <-].
Qed.

Lemma TapFile_init_config (setup_mapper : bool) (user : gmap string pyval)
    (tap : TapFile) :
  TapFile_init regex_ok environ setup_mapper user = inr tap →
  config tap = apply_defaults (config_jsonschema environ) user.
Proof. intros Hinit. by apply TapFile_init_base, PluginBase_init_config in Hinit. Qed.

(** A tap the SDK has built always carries a [stream_name]. *)
Lemma TapFile_init_stream_name (setup_mapper : bool)
    (user : gmap string pyval) (tap : TapFile) :
  TapFile_init regex_ok environ setup_mapper user = inr tap →
  is_Some (config tap !! "stream_name").
Proof.
  intros Hinit. rewrite (TapFile_init_config _ _ _ Hinit).
  destruct (user !! "stream_name") as [v|] eqn:Hu.
  - exists v. by apply apply_defaults_present.
  - exists (VStr "file"). rewrite apply_defaults_absent by done.
    rewrite schema_defaults_lookup by apply config_property_names_NoDup.
    reflexivity.
Qed.

(** What the caller sets is what the tap reads. *)
Lemma TapFile_init_keeps (setup_mapper : bool) (user : gmap string pyval)
    (tap : TapFile) k v :
  TapFile_init regex_ok environ setup_mapper user = inr tap →
  user !! k = Some v → config tap !! k = Some v.
Proof.
  intros Hinit Hk. rewrite (TapFile_init_config _ _ _ Hinit).
  by apply apply_defaults_present.
Qed.
End SdkInitFacts.

Example sample_tap_is_built :
  @TapFile_init record_streams (λ _, true) ∅ true
    (<["file_type" := VStr "jsonl"]> SAMPLE_CONFIG)
  = inr (sample_tap "file_type" (VStr "jsonl")).
Proof. vm_compute. reflexivity. Qed.

Example sample_tap_csv_without_mapper :
  @TapFile_init record_streams (λ _, true) ∅ false
    (<["file_type" := VStr "csv"]> SAMPLE_CONFIG)
  = inr (sample_tap "file_type" (VStr "csv")).
Proof. vm_compute. reflexivity. Qed.

Example sample_tap_csv_not_built :
  @TapFile_init record_streams (λ _, true) ∅ true
    (<["file_type" := VStr "csv"]> SAMPLE_CONFIG)
  = inl (ValueError "csv is not a valid 'file_type'. Did you mean 'delimited'?").
Proof. vm_compute. reflexivity. Qed.

Example sample_tap_protocol_checked :
  @TapFile_init record_streams (λ _, true) ∅ true
    (<["protocol" := VStr "ftp"]> SAMPLE_CONFIG)
  = inl ConfigValidationError.
Proof. vm_compute. reflexivity. Qed.

(** C1: with [file_type] set to ["csv"] (and a [stream_name] to read, which
    every tap the SDK builds has), [discover_streams] instantiates no stream
    and raises a [ValueError] whose message says that ['delimited'] was
    meant. *)
Theorem discover_streams_csv `{Streams} (self : TapFile) :
  is_Some (config self !! "stream_name") →
  config self !! "file_type" = Some (VStr "csv") →
  discover_streams self =
    raises (ValueError "csv is not a valid 'file_type'. Did you mean 'delimited'?").
Proof.
  intros [name Hname] Htype.
  by rewrite (discover_streams_dispatch _ _ _ Hname Htype).
Qed.

Lemma discover_streams_csv_witness :
  is_Some (config (sample_tap "file_type" (VStr "csv")) !! "stream_name")
  ∧ config (sample_tap "file_type" (VStr "csv")) !! "file_type" = Some (VStr "csv")
  ∧ @discover_streams record_streams (sample_tap "file_type" (VStr "csv")) =
      raises (ValueError "csv is not a valid 'file_type'. Did you mean 'delimited'?").
Proof.
  assert (is_Some (config (sample_tap "file_type" (VStr "csv")) !! "stream_name"))
    as Hname by (exists (VStr "file"); vm_compute; reflexivity).
  assert (config (sample_tap "file_type" (VStr "csv")) !! "file_type"
          = Some (VStr "csv")) as Htype by (vm_compute; reflexivity).
  split; [exact Hname|]. split; [exact Htype|].
  exact (@discover_streams_csv record_streams _ Hname Htype).
Defined.

(** C2: with [file_type] set to ["avro"], [discover_streams] raises
    [NotImplementedError] without having instantiated any stream class, the
    only way it has to reach a file; no stream is returned. *)
Theorem discover_streams_avro `{Streams} (self : TapFile) :
  is_Some (config self !! "stream_name") →
  config self !! "file_type" = Some (VStr "avro") →
  calls (discover_streams self) = []
  ∧ outcome (discover_streams self)
    = inl (NotImplementedError "avro has not yet been implemented.").
Proof.
  intros [name Hname] Htype.
  by rewrite (discover_streams_dispatch _ _ _ Hname Htype).
Qed.

Lemma discover_streams_avro_witness :
  is_Some (config (sample_tap "file_type" (VStr "avro")) !! "stream_name")
  ∧ config (sample_tap "file_type" (VStr "avro")) !! "file_type" = Some (VStr "avro")
  ∧ calls (@discover_streams record_streams (sample_tap "file_type" (VStr "avro"))) = []
  ∧ outcome (@discover_streams record_streams (sample_tap "file_type" (VStr "avro")))
    = inl (NotImplementedError "avro has not yet been implemented.").
Proof.
  assert (is_Some (config (sample_tap "file_type" (VStr "avro")) !! "stream_name"))
    as Hname by (exists (VStr "file"); vm_compute; reflexivity).
  assert (config (sample_tap "file_type" (VStr "avro")) !! "file_type"
          = Some (VStr "avro")) as Htype by (vm_compute; reflexivity).
  split; [exact Hname|]. split; [exact Htype|].
  exact (@discover_streams_avro record_streams _ Hname Htype).
Defined.




Example discover_streams_empty_stream_name :
  @discover_streams record_streams
    (sample_tap "stream_name" (VStr EmptyString))
  = mkRun [mkInstantiation DelimitedStreamCls (VStr EmptyString)]
          (inl (missing_name_error DelimitedStreamCls)).
Proof. vm_compute. reflexivity. Qed.

(** C9: for a [file_type] other than ["delimited"], ["jsonl"] and ["avro"],
    [discover_streams] instantiates nothing and raises [ValueError]; the
    message suggests ['delimited'] for ["csv"] and ["tsv"] and is the plain
    one otherwise. The schema puts no [enum] on [file_type], so a valid
    configuration stays valid when [file_type] is set to any value of its
    declared type: the failure is only met at stream discovery. *)
Theorem discover_streams_unknown_file_type `{Streams}
    (self : TapFile) (file_type : pyval) :
  is_Some (config self !! "stream_name") →
  config self !! "file_type" = Some file_type →
  file_type ∉ [VStr "delimited"; VStr "jsonl"; VStr "avro"] →
  discover_streams self =
    raises (ValueError
      (if bool_decide (file_type ∈ [VStr "csv"; VStr "tsv"])
       then py_str file_type
            +:+ " is not a valid 'file_type'. Did you mean 'delimited'?"
       else py_str file_type +:+ " is not a valid 'file_type'."))
  ∧ (∀ environ, schema_enum (config_jsonschema environ) "file_type" = None)
  ∧ (∀ regex_ok environ cfg,
       type_accepts regex_ok RegexType true file_type = true →
       validate regex_ok (config_jsonschema environ) cfg = true →
       validate regex_ok (config_jsonschema environ)
         (<["file_type" := file_type]> cfg) = true).
Proof.
  intros [name Hname] Htype Hft. split; [|split].
  - rewrite (discover_streams_dispatch _ _ _ Hname Htype).
    unfold py_in_strs, py_eq_str; simpl.
    rewrite !(bool_decide_eq_false_2 (file_type = VStr "delimited")),
            !(bool_decide_eq_false_2 (file_type = VStr "jsonl")),
            !(bool_decide_eq_false_2 (file_type = VStr "avro"))
      by (intros ->; apply Hft; repeat constructor).
    destruct (decide (file_type = VStr "csv")) as [->|Hcsv]; [reflexivity|].
    destruct (decide (file_type = VStr "tsv")) as [->|Htsv]; [reflexivity|].
    rewrite !bool_decide_eq_false_2; [reflexivity| |done|done].
    rewrite !elem_of_cons, elem_of_nil. tauto.
  - reflexivity.
  - intros regex_ok environ cfg. apply validate_file_type_open.
Qed.

Lemma discover_streams_unknown_file_type_witness :
  let tsv := sample_tap "file_type" (VStr "tsv") in
  is_Some (config tsv !! "stream_name")
  ∧ config tsv !! "file_type" = Some (VStr "tsv")
  ∧ (VStr "tsv" ∉ [VStr "delimited"; VStr "jsonl"; VStr "avro"])
  ∧ @discover_streams record_streams tsv =
      raises (ValueError "tsv is not a valid 'file_type'. Did you mean 'delimited'?")
  ∧ validate (λ _, true) (config_jsonschema ∅)
      (<["file_type" := VStr "tsv"]> (config (sample_tap "file_type" VNone)))
    = true.
Proof.
  intros tsv.
  assert (is_Some (config tsv !! "stream_name")) as Hname
    by (exists (VStr "file"); vm_compute; reflexivity).
  assert (config tsv !! "file_type" = Some (VStr "tsv")) as Htype
    by (vm_compute; reflexivity).
  assert (VStr "tsv" ∉ [VStr "delimited"; VStr "jsonl"; VStr "avro"]) as Hft
    by (rewrite !elem_of_cons, elem_of_nil; intros [|[|[|]]]; done).
  pose proof (@discover_streams_unknown_file_type record_streams tsv (VStr "tsv")
                Hname Htype Hft) as [Hraise [_ Hvalid]].
  split; [exact Hname|]. split; [exact Htype|]. split; [exact Hft|].
  split; [exact Hraise|].
  apply Hvalid; vm_compute; reflexivity.
Defined.

Example discover_streams_parquet :
  @discover_streams record_streams (sample_tap "file_type" (VStr "parquet"))
  = raises (ValueError "parquet is not a valid 'file_type'.").
Proof. vm_compute. reflexivity. Qed.

Example discover_streams_null_file_type :
  @discover_streams record_streams (sample_tap "file_type" VNone)
  = raises (ValueError "None is not a valid 'file_type'.").
Proof. vm_compute. reflexivity. Qed.

Example discover_streams_without_stream_name :
  @discover_streams record_streams (mkTapFile SAMPLE_CONFIG)
  = raises (KeyError "stream_name").
Proof. vm_compute. reflexivity. Qed.

(** C10: the schema declares the defaults [stream_name = "file"],
    [file_type = "delimited"], [compression = "detect"],
    [delimiter = "detect"], [quote_character] the double quote,
    [jsonl_sampling_strategy = "first"],
    [jsonl_type_coercion_strategy = "any"], [caching_strategy = "once"];
    exactly [protocol] and [filepath] are required; and a configuration
    that omits one of these settings reads its default once the defaults
    are filled in. *)
Theorem config_defaults (environ : gmap string string) :
  let sch := config_jsonschema environ in
  schema_default sch "stream_name" = Some (VStr "file")
  ∧ schema_default sch "file_type" = Some (VStr "delimited")
  ∧ schema_default sch "compression" = Some (VStr "detect")
  ∧ schema_default sch "delimiter" = Some (VStr "detect")
  ∧ schema_default sch "quote_character" = Some (VStr double_quote)
  ∧ schema_default sch "jsonl_sampling_strategy" = Some (VStr "first")
  ∧ schema_default sch "jsonl_type_coercion_strategy" = Some (VStr "any")
  ∧ schema_default sch "caching_strategy" = Some (VStr "once")
  ∧ required sch = ["protocol"; "filepath"]
  ∧ ∀ (user : gmap string pyval) (k : string),
      user !! k = None →
      apply_defaults sch user !! k = schema_default sch k.
Proof.
  repeat (split; [reflexivity|]).
  intros user k Hk. rewrite apply_defaults_absent by done.
  apply schema_defaults_lookup, config_property_names_NoDup.
Qed.

Lemma config_defaults_witness :
  SAMPLE_CONFIG !! "file_type" = None
  ∧ apply_defaults (config_jsonschema ∅) SAMPLE_CONFIG !! "file_type"
    = Some (VStr "delimited").
Proof.
  assert (SAMPLE_CONFIG !! "file_type" = None) as Hk by (vm_compute; reflexivity).
  split; [exact Hk|].
  destruct (config_defaults ∅) as (_ & Hd & _ & _ & _ & _ & _ & _ & _ & Happly).
  rewrite (Happly SAMPLE_CONFIG "file_type" Hk). exact Hd.
Defined.

(** * Properties of the ingestion pipeline *)

Import Ingest.

Section FileNames.
(** The extension is a suffix of the name. *)
Lemma extension_suffix (filename : string) : ends_in filename (extension filename).
Proof.
  induction filename as [|c rest [stem IH]]; simpl.
  - by exists EmptyString.
  - destruct (extension rest) as [|d ext] eqn:Hext.
    + destruct (Ascii.eqb c "."); [by exists EmptyString|].
      exists (String c stem). exact (f_equal (String c) IH).
    + exists (String c stem). exact (f_equal (String c) IH).
Qed.

(** Text put in front of a name with an extension leaves the extension
    as it is. *)
Lemma extension_app (stem name : string) :
  extension name ≠ EmptyString →
  extension (stem +:+ name) = extension name.
Proof.
  intros Hext. induction stem as [|c stem IH]; [done|].
  change (extension (String c (stem +:+ name)) = extension name).
  simpl. rewrite IH. by destruct (extension name).
Qed.

(** A name ending in a suffix that is its own extension has that
    extension. *)
Lemma ends_in_extension (filename suffix : string) :
  extension suffix = suffix → suffix ≠ EmptyString →
  ends_in filename suffix → extension filename = suffix.
Proof.
  intros Hself Hne [stem ->]. rewrite extension_app; congruence.
Qed.

Lemma extension_ends_in (filename suffix : string) :
  extension filename = suffix → ends_in filename suffix.
Proof. intros <-. apply extension_suffix. Qed.
End FileNames.

Example extension_of_archive : extension "data/2024.01/a.csv.gz" = ".gz".
Proof. reflexivity. Qed.

Example extension_of_plain_name : extension "README" = EmptyString.
Proof. reflexivity. Qed.

Section Detection.
Lemma assoc_Some {A} (k : string) (l : list (string * A)) (a : A) :
  assoc k l = Some a → (k, a) ∈ l.
Proof.
  induction l as [|[k' a'] l IH]; simpl; [done|].
  case_decide as Hk; [intros [= ->]; subst; apply list_elem_of_here|].
  intros Hl. apply list_elem_of_further, IH, Hl.
Qed.

(** A name ending in a suffix of the codec table gets that suffix's
    codec. *)
Lemma detect_codec_suffix (filename suffix : string) (c : Codec) :
  (suffix, c) ∈ extension_codecs →
  ends_in filename suffix → detect_codec filename = Some c.
Proof.
  intros Hin Hends. unfold detect_codec.
  apply list_elem_of_In in Hin. simpl in Hin.
  repeat (destruct Hin as [Hin|Hin];
          [simplify_eq;
           match type of Hends with
           | ends_in _ ?s => rewrite (ends_in_extension filename s)
           end; [reflexivity|reflexivity|done|exact Hends] |]).
  destruct Hin.
Qed.

(** A detected codec comes from a suffix of the table. *)
Lemma detect_codec_Some (filename : string) (c : Codec) :
  detect_codec filename = Some c →
  ∃ suffix, (suffix, c) ∈ extension_codecs ∧ ends_in filename suffix.
Proof.
  intros Hc. exists (extension filename). split.
  - by apply assoc_Some.
  - apply extension_suffix.
Qed.

Lemma detect_codec_unrecognized (filename : string) :
  (∀ suffix, suffix ∈ [".gz"; ".zip"; ".bz2"; ".xz"; ".lzma"] →
             ¬ ends_in filename suffix) →
  detect_codec filename = None.
Proof.
  intros Hnone. destruct (detect_codec filename) as [c|] eqn:Hc; [|done].
  apply detect_codec_Some in Hc as (suffix & Hin & Hends).
  exfalso. apply (Hnone suffix); [|done].
  apply (list_elem_of_fmap_2 fst) in Hin. exact Hin.
Qed.
End Detection.

(** C4: under [detect] the codec is a function of the file name alone,
    defined on every name: a name ending in [.gz] selects gzip, [.zip]
    zip, [.bz2] bz2, [.xz] xz and [.lzma] lzma; a name ending in none of
    these selects no codec and its stream is passed through as it is; and
    every name falls under one of these cases. *)
Theorem detect_codec_by_extension (filename : string) :
  (ends_in filename ".gz" → detect_codec filename = Some (Stream Gzip))
  ∧ (ends_in filename ".zip" → detect_codec filename = Some Zip)
  ∧ (ends_in filename ".bz2" → detect_codec filename = Some (Stream Bz2))
  ∧ (ends_in filename ".xz" → detect_codec filename = Some (Stream Xz))
  ∧ (ends_in filename ".lzma" → detect_codec filename = Some (Stream Lzma))
  ∧ ((∀ suffix, suffix ∈ [".gz"; ".zip"; ".bz2"; ".xz"; ".lzma"] →
                ¬ ends_in filename suffix) →
     detect_codec filename = None
     ∧ ∀ on_empty raw,
         resolve on_empty Detect filename raw = inr (mkDecoded filename raw))
  ∧ ((∃ suffix c, (suffix, c) ∈ extension_codecs
                  ∧ ends_in filename suffix ∧ detect_codec filename = Some c)
     ∨ ((∀ suffix, suffix ∈ [".gz"; ".zip"; ".bz2"; ".xz"; ".lzma"] →
                   ¬ ends_in filename suffix)
        ∧ detect_codec filename = None)).
Proof.
  do 5 (split; [intros Hends; eapply detect_codec_suffix;
                  [|exact Hends]; repeat constructor|]).
  split.
  - intros Hnone. pose proof (detect_codec_unrecognized _ Hnone) as Hd.
    split; [exact Hd|]. intros on_empty raw. unfold resolve; simpl.
    rewrite Hd. by destruct raw.
  - destruct (detect_codec filename) as [c|] eqn:Hc.
    + left. apply detect_codec_Some in Hc as Hs. destruct Hs as (suffix & Hin & Hends).
      by exists suffix, c.
    + right. split; [|done]. intros suffix Hin Hends.
      rewrite !elem_of_cons, elem_of_nil in Hin.
      assert (is_Some (detect_codec filename)) as [c Hc']; [|congruence].
      destruct Hin as [->|[->|[->|[->|[->|[]]]]]]; eexists;
        (eapply detect_codec_suffix; [|exact Hends]; repeat constructor).
Qed.

Lemma detect_codec_by_extension_witness :
  ends_in "export/a.csv.gz" ".gz"
  ∧ detect_codec "export/a.csv.gz" = Some (Stream Gzip)
  ∧ ends_in "b.zip" ".zip"
  ∧ detect_codec "b.zip" = Some Zip.
Proof.
  assert (ends_in "export/a.csv.gz" ".gz") as Hgz by (by exists "export/a.csv").
  assert (ends_in "b.zip" ".zip") as Hzip by (by exists "b").
  split; [exact Hgz|]. split.
  - exact (proj1 (detect_codec_by_extension "export/a.csv.gz") Hgz).
  - split; [exact Hzip|].
    exact (proj1 (proj2 (detect_codec_by_extension "b.zip")) Hzip).
Defined.

Example detect_codec_plain_text : detect_codec "notes.txt" = None.
Proof. reflexivity. Qed.

Example detect_codec_upper_case : detect_codec "A.GZ" = None.
Proof. reflexivity. Qed.

Section Delimiters.
Lemma resolve_delimiter_suffix (filename suffix d : string) :
  (suffix, d) ∈ extension_delimiters →
  ends_in filename suffix →
  resolve_delimiter "detect" filename = inr d.
Proof.
  intros Hin Hends. unfold resolve_delimiter. rewrite decide_True by done.
  apply list_elem_of_In in Hin. simpl in Hin.
  repeat (destruct Hin as [Hin|Hin];
          [simplify_eq;
           match type of Hends with
           | ends_in _ ?s => rewrite (ends_in_extension filename s)
           end; [reflexivity|reflexivity|done|exact Hends] |]).
  destruct Hin.
Qed.

Lemma resolve_delimiter_other (filename : string) :
  ¬ ends_in filename ".csv" → ¬ ends_in filename ".tsv" →
  resolve_delimiter "detect" filename = inl UnsupportedDelimiterError.
Proof.
  intros Hcsv Htsv. unfold resolve_delimiter. rewrite decide_True by done.
  destruct (assoc (extension filename) extension_delimiters) as [d|] eqn:Hd;
    [|done].
  apply assoc_Some, list_elem_of_In in Hd. simpl in Hd.
  destruct Hd as [[= Hext _]|[[= Hext _]|[]]]; exfalso;
    [apply Hcsv|apply Htsv]; rewrite Hext; apply extension_suffix.
Qed.

Lemma resolve_delimiter_explicit (configured filename : string) :
  configured ≠ "detect" → resolve_delimiter configured filename = inr configured.
Proof. intros Hne. unfold resolve_delimiter. by rewrite decide_False. Qed.
End Delimiters.

(** C5: under delimiter [detect], a file whose name ends in [.csv] is
    resolved to, and parsed with, the comma, and one whose name ends in
    [.tsv] the tab; for a name ending in neither the resolution fails with
    [UnsupportedDelimiterError] and nothing is parsed; a configured
    delimiter other than [detect] is used whatever the name. *)
Theorem resolve_delimiter_detect `{Readers} (filename : string) :
  (ends_in filename ".csv" →
     resolve_delimiter "detect" filename = inr ","
     ∧ ∀ quote sch raw,
         parse (DelimitedText "detect" quote) sch (mkDecoded filename raw)
         = parse_delimited "," quote sch (mkDecoded filename raw))
  ∧ (ends_in filename ".tsv" →
     resolve_delimiter "detect" filename = inr tab
     ∧ ∀ quote sch raw,
         parse (DelimitedText "detect" quote) sch (mkDecoded filename raw)
         = parse_delimited tab quote sch (mkDecoded filename raw))
  ∧ (¬ ends_in filename ".csv" → ¬ ends_in filename ".tsv" →
     resolve_delimiter "detect" filename = inl UnsupportedDelimiterError
     ∧ ∀ quote sch raw,
         parse (DelimitedText "detect" quote) sch (mkDecoded filename raw)
         = ([], Some UnsupportedDelimiterError))
  ∧ (∀ configured, configured ≠ "detect" →
     resolve_delimiter configured filename = inr configured
     ∧ ∀ quote sch raw,
         parse (DelimitedText configured quote) sch (mkDecoded filename raw)
         = parse_delimited configured quote sch (mkDecoded filename raw)).
Proof.
  split; [|split; [|split]].
  - intros Hends.
    assert (resolve_delimiter "detect" filename = inr ",") as Hd
      by (eapply resolve_delimiter_suffix; [|exact Hends]; repeat constructor).
    split; [exact Hd|]. intros quote sch raw. simpl. by rewrite Hd.
  - intros Hends.
    assert (resolve_delimiter "detect" filename = inr tab) as Hd
      by (eapply resolve_delimiter_suffix; [|exact Hends]; repeat constructor).
    split; [exact Hd|]. intros quote sch raw. simpl. by rewrite Hd.
  - intros Hcsv Htsv.
    pose proof (resolve_delimiter_other _ Hcsv Htsv) as Hd.
    split; [exact Hd|]. intros quote sch raw. simpl. by rewrite Hd.
  - intros configured Hne.
    pose proof (resolve_delimiter_explicit configured filename Hne) as Hd.
    split; [exact Hd|]. intros quote sch raw. simpl. by rewrite Hd.
Qed.

Lemma resolve_delimiter_detect_witness :
  ends_in "data/a.csv" ".csv"
  ∧ resolve_delimiter "detect" "data/a.csv" = inr ","
  ∧ ";" ≠ "detect"
  ∧ resolve_delimiter ";" "data/a.csv" = inr ";".
Proof.
  assert (ends_in "data/a.csv" ".csv") as Hcsv by (by exists "data/a").
  assert (";" ≠ "detect") as Hne by discriminate.
  pose proof (@resolve_delimiter_detect sample_readers "data/a.csv")
    as (Hcomma & _ & _ & Hexplicit).
  split; [exact Hcsv|]. split; [exact (proj1 (Hcomma Hcsv))|].
  split; [exact Hne|]. exact (proj1 (Hexplicit ";" Hne)).
Defined.

Example resolve_delimiter_gzipped_csv :
  resolve_delimiter "detect" "data/a.csv.gz" = inl UnsupportedDelimiterError.
Proof. reflexivity. Qed.

Example resolve_delimiter_tsv : resolve_delimiter "detect" "b.tsv" = inr tab.
Proof. reflexivity. Qed.

Section ZipArchives.
Variable on_empty : result Decoded.

Lemma choose_codec_named_zip (filename : string) :
  choose_codec (Named Zip) filename = Some Zip.
Proof. reflexivity. Qed.

Lemma choose_codec_detect_zip (filename : string) :
  ends_in filename ".zip" → choose_codec Detect filename = Some Zip.
Proof.
  intros Hends. simpl. eapply detect_codec_suffix; [|exact Hends].
  repeat constructor.
Qed.

Lemma decode_zip_many (filename : string) (members : list (string * Payload)) :
  1 < length members →
  decode_with on_empty (Some Zip) filename (ZipArchive members)
  = inl AmbiguousArchiveError.
Proof.
  destruct members as [|[n1 p1] [|m2 members]]; simpl; [lia|lia|done].
Qed.

Lemma decode_zip_single (filename inner_name : string) (inner : Payload) :
  decode_with on_empty (Some Zip) filename (ZipArchive [(inner_name, inner)])
  = resolve on_empty Detect inner_name inner.
Proof. reflexivity. Qed.
End ZipArchives.

(** C6: whenever the resolver treats a file as zip (the codec is named, or
    detected from the [.zip] extension), an archive with more than one
    member fails with [AmbiguousArchiveError], and an archive with exactly
    one member is resolved as that member would be under [detect] with the
    member's own name. *)
Theorem zip_archive_resolution (on_empty : result Decoded)
    (strategy : CompressionStrategy) (filename : string)
    (members : list (string * Payload)) :
  choose_codec strategy filename = Some Zip →
  (1 < length members →
     resolve on_empty strategy filename (ZipArchive members)
     = inl AmbiguousArchiveError)
  ∧ (∀ inner_name inner,
       members = [(inner_name, inner)] →
       resolve on_empty strategy filename (ZipArchive members)
       = resolve on_empty Detect inner_name inner).
Proof.
  intros Hzip. unfold resolve at 1 2. rewrite Hzip. split.
  - apply decode_zip_many.
  - intros inner_name inner ->. apply decode_zip_single.
Qed.

Lemma zip_archive_resolution_witness :
  let nested := ZipArchive [("inner.zip", ZipArchive [("b.tsv", Plain "x")])] in
  let crowded := [("a.csv", Plain "x"); ("b.csv", Plain "y")] in
  choose_codec Detect "outer.zip" = Some Zip
  ∧ 1 < length crowded
  ∧ resolve (inl DecompressionError) Detect "outer.zip" (ZipArchive crowded)
    = inl AmbiguousArchiveError
  ∧ resolve (inl DecompressionError) Detect "outer.zip" nested
    = inr (mkDecoded "b.tsv" (Plain "x")).
Proof.
  intros nested crowded.
  assert (choose_codec Detect "outer.zip" = Some Zip) as Hzip by reflexivity.
  assert (1 < length crowded) as Hmany by (simpl; lia).
  split; [exact Hzip|]. split; [exact Hmany|]. split.
  - exact (proj1 (zip_archive_resolution (inl DecompressionError) Detect
                    "outer.zip" crowded Hzip) Hmany).
  - exact (proj2 (zip_archive_resolution (inl DecompressionError) Detect
                    "outer.zip" _ Hzip) _ _ eq_refl).
Defined.

Example zipped_gzip_member :
  resolve (inl DecompressionError) (Named Zip) "dump"
    (ZipArchive [("a.csv.gz", Packed Gzip (Plain "id,name"))])
  = inr (mkDecoded "a.csv.gz" (Plain "id,name")).
Proof. reflexivity. Qed.

Example gzip_expected_but_plain :
  resolve (inl DecompressionError) (Named (Stream Gzip)) "a.csv" (Plain "id,name")
  = inl DecompressionError.
Proof. reflexivity. Qed.

(** C7: a bound pipeline whose listing matches no entry ends in [Done]
    with no record, no schema and no entry opened; so does the pipeline
    built from settings that bind, when the path and regex match no file. *)
Theorem no_matching_files `{Readers} (p : StreamPipeline) :
  list_matching (source p) (path_prefix p) (path_regex p) = [] →
  run p = mkEmission None [] [] Done
  ∧ ∀ o src, bind_pipeline o src = inr p → ingest o src = mkEmission None [] [] Done.
Proof.
  intros Hnone. assert (run p = mkEmission None [] [] Done) as Hrun.
  { unfold run. by rewrite Hnone. }
  split; [exact Hrun|]. intros o src Hbind. unfold ingest. by rewrite Hbind.
Qed.

Lemma no_matching_files_witness :
  let p := mkStreamPipeline sample_source "data/" (Some "archive/.*")
             Detect (DelimitedText "detect" double_quote) in
  @list_matching sample_readers (source p) (path_prefix p) (path_regex p) = []
  ∧ @run sample_readers p = @mkEmission sample_readers None [] [] Done.
Proof.
  intros p.
  assert (@list_matching sample_readers (source p) (path_prefix p) (path_regex p)
          = []) as Hnone by (vm_compute; reflexivity).
  split; [exact Hnone|].
  exact (proj1 (@no_matching_files sample_readers p Hnone)).
Defined.

Example run_sample_source :
  @run sample_readers
    (mkStreamPipeline sample_source "data/" None Detect
       (DelimitedText "detect" double_quote))
  = @mkEmission sample_readers (Some [","])
      [(",", "id,name"); (tab, "id" +:+ tab +:+ "name")]
      ["data/a.csv"; "data/b.zip"] Done.
Proof. vm_compute. reflexivity. Qed.




Example jsonl_first_any_runs :
  final (@ingest sample_readers
           (mkOptions "data/" (Some "data/a.csv") "jsonl" NoCompression "detect"
              double_quote First AnyType) sample_source)
  = Done.
Proof. vm_compute. reflexivity. Qed.

(** The alternatives of the three strategy settings are the allowed values
    the tap declares for them. *)
Lemma strategy_names_declared (environ : gmap string string) :
  schema_enum (config_jsonschema environ) "compression"
    = Some (compression_names.*1)
  ∧ schema_enum (config_jsonschema environ) "jsonl_sampling_strategy"
    = Some (sampling_names.*1)
  ∧ schema_enum (config_jsonschema environ) "jsonl_type_coercion_strategy"
    = Some (coercion_names.*1).
Proof. repeat split; vm_compute; reflexivity. Qed.

(** * Further properties of [tap.py]

    What [discover_streams] does on every configuration, and what the
    declared schema enforces before [discover_streams] runs. *)

(** X1: [discover_streams] reads [stream_name] before [file_type]: without
    [stream_name] it raises [KeyError('stream_name')] whatever [file_type]
    is, and with [stream_name] but without [file_type] it raises
    [KeyError('file_type')]; in both cases no stream class is
    instantiated. *)
Theorem discover_streams_missing_key `{Streams} (self : TapFile) :
  (config self !! "stream_name" = None →
     discover_streams self = raises (KeyError "stream_name"))
  ∧ (is_Some (config self !! "stream_name") →
     config self !! "file_type" = None →
     discover_streams self = raises (KeyError "file_type")).
Proof.
  split.
  - intros Hname. unfold discover_streams, getitem. by rewrite Hname.
  - intros [name Hname] Htype. unfold discover_streams, getitem.
    by rewrite Hname, Htype.
Qed.

Lemma discover_streams_missing_key_witness :
  let bare := mkTapFile (<["file_type" := VStr "jsonl"]> SAMPLE_CONFIG) in
  let named := mkTapFile (<["stream_name" := VStr "orders"]> SAMPLE_CONFIG) in
  (config bare !! "stream_name" = None
   ∧ @discover_streams record_streams bare = raises (KeyError "stream_name"))
  ∧ (is_Some (config named !! "stream_name")
     ∧ config named !! "file_type" = None
     ∧ @discover_streams record_streams named = raises (KeyError "file_type")).
Proof.
  intros bare named.
  assert (config bare !! "stream_name" = None) as Hbare
    by (vm_compute; reflexivity).
  assert (is_Some (config named !! "stream_name")) as Hnamed
    by (exists (VStr "orders"); vm_compute; reflexivity).
  assert (config named !! "file_type" = None) as Htype
    by (vm_compute; reflexivity).
  split.
  - split; [exact Hbare|].
    exact (proj1 (@discover_streams_missing_key record_streams bare) Hbare).
  - split; [exact Hnamed|]. split; [exact Htype|].
    exact (proj2 (@discover_streams_missing_key record_streams named) Hnamed Htype).
Defined.

(** The outcomes of [discover_streams], by cases on what the configuration
    holds under the two keys it reads. *)
Lemma discover_streams_cases `{Streams} (self : TapFile) :
  (∃ k, discover_streams self = raises (KeyError k)
        ∧ ((k = "stream_name" ∧ config self !! "stream_name" = None)
           ∨ (k = "file_type" ∧ is_Some (config self !! "stream_name")
              ∧ config self !! "file_type" = None)))
  ∨ (∃ name, config self !! "stream_name" = Some name
       ∧ ((config self !! "file_type" = Some (VStr "delimited")
           ∧ discover_streams self =
               mkRun [mkInstantiation DelimitedStreamCls name]
                     (if py_truthy name then inr [DelimitedStream self name]
                      else inl (missing_name_error DelimitedStreamCls)))
          ∨ (config self !! "file_type" = Some (VStr "jsonl")
             ∧ discover_streams self =
                 mkRun [mkInstantiation JSONLStreamCls name]
                       (if py_truthy name then inr [JSONLStream self name]
                        else inl (missing_name_error JSONLStreamCls)))
          ∨ (config self !! "file_type" = Some (VStr "avro")
             ∧ discover_streams self =
                 raises (NotImplementedError "avro has not yet been implemented."))
          ∨ (∃ v tail, config self !! "file_type" = Some v
               ∧ (v ∉ [VStr "delimited"; VStr "jsonl"; VStr "avro"])
               ∧ (tail ∈ [" is not a valid 'file_type'. Did you mean 'delimited'?";
                          " is not a valid 'file_type'."])
               ∧ discover_streams self = raises (ValueError (py_str v +:+ tail))))).
Proof.
  destruct (config self !! "stream_name") as [name|] eqn:Hname.
  2:{ left. exists "stream_name". split; [|by left].
      unfold discover_streams, getitem. by rewrite Hname. }
  destruct (config self !! "file_type") as [v|] eqn:Htype.
  2:{ left. exists "file_type". split; [|right; eauto].
      unfold discover_streams, getitem. by rewrite Hname, Htype. }
  right. exists name. split; [done|].
  rewrite (discover_streams_dispatch _ _ _ Hname Htype).
  unfold py_in_strs, py_eq_str; simpl.
  destruct (decide (v = VStr "delimited")) as [->|Hd]; [by left|].
  destruct (decide (v = VStr "jsonl")) as [->|Hj]; [by right; left|].
  destruct (decide (v = VStr "avro")) as [->|Ha]; [by right; right; left|].
  right; right; right.
  rewrite !(bool_decide_eq_false_2 (v = VStr "delimited")),
          !(bool_decide_eq_false_2 (v = VStr "jsonl")),
          !(bool_decide_eq_false_2 (v = VStr "avro")) by done.
  assert (v ∉ [VStr "delimited"; VStr "jsonl"; VStr "avro"]) as Hout
    by (rewrite !elem_of_cons, elem_of_nil; tauto).
  destruct (bool_decide (v = VStr "csv") || (bool_decide (v = VStr "tsv") || false));
    eexists v, _; (split; [reflexivity|]); (split; [exact Hout|]);
    (split; [|reflexivity]); repeat constructor.
Qed.








Section SchemaEnforcement.
Context (regex_ok : string → bool) (environ : gmap string string).


(** Each default the schema declares passes the type and the allowed
    values of its own property. *)
Lemma config_default_accepted (k : string) (ps : PropertySchema) (d : pyval) :
  regex_ok "delimited" = true →
  (k, ps) ∈ properties (config_jsonschema environ) →
  ps_default ps = Some d →
  property_accepts regex_ok ps d = true.
Proof.
  intros Hre Hin Hd. apply list_elem_of_In in Hin.
  unfold config_jsonschema, to_dict, property_to_dict in Hin; simpl in Hin.
  repeat (destruct Hin as [Hin|Hin];
    [ simplify_eq/=; unfold property_accepts; simpl;
      first [ done | by rewrite Hre
            | unfold getenv in Hd; destruct (environ !! _); by simplify_eq/= ]
    | ]).
  destruct Hin.
Qed.

Lemma required_without_default (k : string) :
  k ∈ required (config_jsonschema environ) →
  schema_defaults (config_jsonschema environ) !! k = None.
Proof.
  intros Hk. rewrite schema_defaults_lookup by apply config_property_names_NoDup.
  apply list_elem_of_In in Hk. simpl in Hk.
  destruct Hk as [<-|[<-|[]]]; reflexivity.
Qed.


(** A value its property refuses makes the whole configuration invalid. *)
Lemma validate_refused (cfg : gmap string pyval) (k : string)
    (ps : PropertySchema) (v : pyval) :
  (k, ps) ∈ properties (config_jsonschema environ) →
  cfg !! k = Some v →
  property_accepts regex_ok ps v = false →
  validate regex_ok (config_jsonschema environ) cfg = false.
Proof.
  intros Hin Hk Hno. unfold validate.
  destruct (forallb _ (properties _)) eqn:Hall; [|by rewrite andb_false_r].
  rewrite forallb_forall in Hall.
  specialize (Hall (k, ps) ltac:(by apply list_elem_of_In)). simpl in Hall.
  rewrite Hk in Hall. congruence.
Qed.

(** A key with a declared default reads, after the defaults are filled
    in, what the caller gave or else that default. *)
Lemma apply_defaults_default (user : gmap string pyval) (k : string) (d : pyval) :
  schema_default (config_jsonschema environ) k = Some d →
  apply_defaults (config_jsonschema environ) user !! k
  = Some (default d (user !! k)).
Proof.
  intros Hd. destruct (user !! k) as [v|] eqn:Hu; simpl.
  - by apply apply_defaults_present.
  - rewrite apply_defaults_absent by done.
    by rewrite schema_defaults_lookup by apply config_property_names_NoDup.
Qed.
End SchemaEnforcement.

Section Construction.
Context `{Streams} (regex_ok : string → bool) (environ : gmap string string).

(** Every key with a declared default is present in a tap the SDK built. *)
Lemma TapFile_init_default_present (setup_mapper : bool)
    (user : gmap string pyval) (tap : TapFile) (k : string) (d : pyval) :
  schema_default (config_jsonschema environ) k = Some d →
  TapFile_init regex_ok environ setup_mapper user = inr tap →
  config tap !! k = Some (default d (user !! k)).
Proof.
  intros Hd Hinit. rewrite (TapFile_init_config _ _ _ _ _ Hinit).
  by apply apply_defaults_default.
Qed.


End Construction.

Lemma py_in_strs_str (s : string) (lits : list string) :
  py_in_strs (VStr s) lits = bool_decide (s ∈ lits).
Proof.
  unfold py_in_strs, py_eq_str. induction lits as [|l lits IH]; simpl.
  - reflexivity.
  - rewrite IH. destruct (decide (s = l)) as [->|Hne].
    + rewrite (bool_decide_eq_true_2 (VStr l = VStr l)) by done.
      symmetry. apply bool_decide_eq_true_2, list_elem_of_here.
    + rewrite (bool_decide_eq_false_2 (VStr s = VStr l)) by congruence.
      simpl. apply bool_decide_ext. rewrite elem_of_cons. tauto.
Qed.

(** X6: every default the schema declares is a value its own property
    admits: it has the declared type and, where the property lists allowed
    values, it is one of them; this holds for the two defaults read from
    the process environment too, whatever the environment holds. *)
Theorem declared_defaults_are_allowed (regex_ok : string → bool)
    (environ : gmap string string) (k : string) (ps : PropertySchema)
    (d : pyval) :
  regex_ok "delimited" = true →
  (k, ps) ∈ properties (config_jsonschema environ) →
  ps_default ps = Some d →
  type_accepts regex_ok (ps_type ps) (ps_nullable ps) d = true
  ∧ enum_accepts (ps_enum ps) d = true.
Proof.
  intros Hre Hin Hd. apply andb_true_iff.
  exact (config_default_accepted regex_ok environ k ps d Hre Hin Hd).
Qed.

Lemma declared_defaults_are_allowed_witness :
  let environ : gmap string string := {[ "AWS_ACCESS_KEY_ID" := "AKIA" ]} in
  let ps := mkPropertySchema StringType true (Some (VStr "AKIA")) None
              ("The access key to use when authenticating to S3. Ignored if "
               +:+ "`protocol!=s3` or `s3_anonymous_connection=True`. Defaults to the "
               +:+ "value of the environment variable of the same name.") in
  ("AWS_ACCESS_KEY_ID", ps) ∈ properties (config_jsonschema environ)
  ∧ type_accepts (λ _, true) (ps_type ps) (ps_nullable ps) (VStr "AKIA") = true
  ∧ enum_accepts (ps_enum ps) (VStr "AKIA") = true.
Proof.
  intros environ ps.
  assert (("AWS_ACCESS_KEY_ID", ps) ∈ properties (config_jsonschema environ))
    as Hin by (apply list_elem_of_In; vm_compute; tauto).
  split; [exact Hin|].
  exact (declared_defaults_are_allowed (λ _, true) environ _ ps (VStr "AKIA")
           eq_refl Hin eq_refl).
Defined.



(** X8: [protocol] and [filepath] are required: a configuration that
    leaves either out is refused with a validation error, whatever else it
    sets and whether or not the mapper is set up, so no tap is built and
    [discover_streams] is never reached. *)
Theorem TapFile_init_required `{Streams} (regex_ok : string → bool)
    (environ : gmap string string) (setup_mapper : bool)
    (user : gmap string pyval) :
  user !! "protocol" = None ∨ user !! "filepath" = None →
  TapFile_init regex_ok environ setup_mapper user = inl ConfigValidationError.
Proof.
  intros Hmissing. unfold TapFile_init, PluginBase_init, validate.
  assert (∃ k, k ∈ required (config_jsonschema environ) ∧ user !! k = None)
    as (k & Hk & Hu).
  { destruct Hmissing; [exists "protocol"|exists "filepath"];
      (split; [repeat constructor|done]). }
  destruct (forallb _ (required _)) eqn:Hreq; [|done].
  rewrite forallb_forall in Hreq.
  specialize (Hreq k ltac:(by apply list_elem_of_In)).
  apply bool_decide_eq_true in Hreq as [v Hv].
  rewrite apply_defaults_absent, required_without_default in Hv; done.
Qed.

Lemma TapFile_init_required_witness :
  let user : gmap string pyval := {[ "filepath" := VStr "/srv/files" ]} in
  (user !! "protocol" = None ∨ user !! "filepath" = None)
  ∧ @TapFile_init record_streams (λ _, true) ∅ true user
    = inl ConfigValidationError.
Proof.
  intros user.
  assert (user !! "protocol" = None ∨ user !! "filepath" = None) as Hmissing
    by (left; vm_compute; reflexivity).
  split; [exact Hmissing|].
  exact (@TapFile_init_required record_streams (λ _, true) ∅ true user Hmissing).
Defined.

(** X9: a setting declared with allowed values ([protocol],
    [compression], [jsonl_sampling_strategy],
    [jsonl_type_coercion_strategy], [caching_strategy]) accepts only
    them: a configuration giving such a setting any other string is
    refused with a validation error, whether or not the mapper is set
    up. *)
Theorem TapFile_init_allowed_values `{Streams} (regex_ok : string → bool)
    (environ : gmap string string) (setup_mapper : bool)
    (user : gmap string pyval) (k : string) (allowed : list string)
    (s : string) :
  schema_enum (config_jsonschema environ) k = Some allowed →
  user !! k = Some (VStr s) →
  s ∉ allowed →
  TapFile_init regex_ok environ setup_mapper user = inl ConfigValidationError.
Proof.
  intros Henum Hu Hout. unfold schema_enum in Henum.
  destruct (assoc k (properties (config_jsonschema environ))) as [ps|] eqn:Hps;
    [|done]. simpl in Henum.
  apply assoc_Some in Hps. unfold TapFile_init, PluginBase_init.
  rewrite (validate_refused regex_ok environ _ k ps (VStr s) Hps); [done| |].
  - by apply apply_defaults_present.
  - unfold property_accepts, enum_accepts. rewrite Henum, py_in_strs_str.
    rewrite (bool_decide_eq_false_2 _ Hout). apply andb_false_r.
Qed.

Lemma TapFile_init_allowed_values_witness :
  let user := <["compression" := VStr "rar"]> SAMPLE_CONFIG in
  let allowed := ["none"; "zip"; "bz2"; "gzip"; "lzma"; "xz"; "detect"] in
  schema_enum (config_jsonschema ∅) "compression" = Some allowed
  ∧ user !! "compression" = Some (VStr "rar")
  ∧ ("rar" ∉ allowed)
  ∧ @TapFile_init record_streams (λ _, true) ∅ true user
    = inl ConfigValidationError.
Proof.
  intros user allowed.
  assert (schema_enum (config_jsonschema ∅) "compression" = Some allowed)
    as Henum by reflexivity.
  assert (user !! "compression" = Some (VStr "rar")) as Hu
    by (vm_compute; reflexivity).
  assert ("rar" ∉ allowed) as Hout
    by (apply (bool_decide_unpack _); vm_compute; exact I).
  split; [exact Henum|]. split; [exact Hu|]. split; [exact Hout|].
  exact (@TapFile_init_allowed_values record_streams (λ _, true) ∅ true user
           _ _ _ Henum Hu Hout).
Defined.

(** X10: the two settings [discover_streams] reads both have a declared
    default, so on a tap built from any accepted configuration, with or
    without the mapper set up, [discover_streams] never raises
    [KeyError]. *)
Theorem built_tap_has_no_KeyError `{Streams} (regex_ok : string → bool)
    (environ : gmap string string) (setup_mapper : bool)
    (user : gmap string pyval) (tap : TapFile) :
  TapFile_init regex_ok environ setup_mapper user = inr tap →
  ∀ k, outcome (discover_streams tap) ≠ inl (KeyError k).
Proof.
  intros Hinit k Hraise.
  pose proof (TapFile_init_default_present regex_ok environ setup_mapper user
                tap "stream_name" (VStr "file") eq_refl Hinit) as Hname.
  pose proof (TapFile_init_default_present regex_ok environ setup_mapper user
                tap "file_type" (VStr "delimited") eq_refl Hinit) as Htype.
  destruct (discover_streams_cases tap)
    as [(k' & _ & [[_ Hnone]|(_ & _ & Hnone)])
       |(name & _ & [[_ Hr]|[[_ Hr]|[[_ Hr]|(v & tail & _ & _ & _ & Hr)]]])];
    try congruence; rewrite Hr in Hraise; simpl in Hraise;
    try discriminate; by destruct (py_truthy name).
Qed.

Lemma built_tap_has_no_KeyError_witness :
  @TapFile_init record_streams (λ _, true) ∅ false
    (<["file_type" := VStr "csv"]> SAMPLE_CONFIG)
    = inr (sample_tap "file_type" (VStr "csv"))
  ∧ outcome (@discover_streams record_streams (sample_tap "file_type" (VStr "csv")))
    ≠ inl (KeyError "stream_name").
Proof.
  assert (@TapFile_init record_streams (λ _, true) ∅ false
            (<["file_type" := VStr "csv"]> SAMPLE_CONFIG)
          = inr (sample_tap "file_type" (VStr "csv"))) as Hinit
    by (vm_compute; reflexivity).
  split; [exact Hinit|].
  exact (@built_tap_has_no_KeyError record_streams _ _ _ _ _ Hinit "stream_name").
Defined.







